(** * FAv3 native launcher: [src/native-main.c]

    The program is a straight-line sequence of calls into GTK, GLib and
    WebKitGTK, plus one callback ([on_activate]) that the toolkit invokes from
    inside [g_application_run].  The embedding keeps that shape:

    - every toolkit entry point the C code calls is a primitive of a small
      state monad [M]; a primitive appends one [Call] record, carrying the
      actual arguments, to the log of the [World];
    - object pointers are handles handed out by the toolkit in allocation
      order;
    - whatever the toolkit decides on its own (how often the event loop emits
      "activate", which status the loop returns, whether the engine manages to
      load a URI) is a field of a [Toolkit] record over which every theorem
      quantifies.

    [main] and [on_activate] are then written line by line as in the C file.
    The C file names [on_activate] in [main] ahead of its definition; here the
    handler comes first, since [g_application_run] calls it through the
    function pointer.  A run is an execution in which every toolkit call
    returns. *)

From Stdlib Require Import List String ZArith Lia Bool Arith.
Import ListNotations.
Open Scope string_scope.
Open Scope list_scope.

(** ** The toolkit boundary *)

Module Gtk.

(** A [GtkApplication *], [GtkWidget *] or [WebKitWebView *].  The casts
    [G_APPLICATION], [GTK_WINDOW], [GTK_CONTAINER], [GTK_WIDGET] and
    [WEBKIT_WEB_VIEW] of the source do not change the pointer. *)
Definition gpointer := nat.

(** Function pointers the program hands to the toolkit.  The source has one:
    [G_CALLBACK(on_activate)]. *)
Inductive GCallback : Type :=
| cb_on_activate.

Definition G_APPLICATION_FLAGS_NONE : Z := 0.

(** One record per toolkit call made by the program, with the arguments as
    passed and, for constructors, the pointer that came back.
    [r_g_application_run] marks the moment the blocking run call returns. *)
Inductive Call : Type :=
| c_gtk_init
| c_gtk_application_new (application_id : string) (flags : Z) (ret : gpointer)
| c_g_signal_connect (instance : gpointer) (detailed_signal : string)
    (c_handler : GCallback) (data : option gpointer)
| c_g_application_run (application : gpointer) (argc : Z) (argv : list string)
| r_g_application_run (status : Z)
| c_g_object_unref (object : gpointer)
| c_gtk_application_window_new (application : gpointer) (ret : gpointer)
| c_gtk_window_set_title (window : gpointer) (title : string)
| c_gtk_window_set_default_size (window : gpointer) (width height : Z)
| c_webkit_web_view_new (ret : gpointer)
| c_gtk_container_add (container widget : gpointer)
| c_webkit_web_view_load_uri (web_view : gpointer) (uri : string)
| c_gtk_widget_show_all (widget : gpointer).

(** What the toolkit and the outside world decide, not the program. *)
Record Toolkit : Type := {
  (* number of "activate" emissions during one run of the event loop *)
  activations : Z -> list string -> nat;
  (* the int the event loop hands back when it stops *)
  loop_status : Z -> list string -> Z;
  (* whether the web engine can fetch the given URI *)
  load_succeeds : string -> bool
}.

Record World : Type := {
  log : list Call;
  next : gpointer;
  signals : list (gpointer * string * GCallback);
  (* the web engine's own record of load requests and their outcome;
     no call of the program reads it *)
  pages : list (gpointer * string * bool)
}.

(** Process start: nothing called, nothing allocated ([0] stands for NULL). *)
Definition world0 : World :=
  {| log := []; next := 1; signals := []; pages := [] |}.

Definition M (A : Type) : Type := World -> A * World.

Definition ret {A : Type} (a : A) : M A := fun w => (a, w).

Definition bind {A B : Type} (m : M A) (k : A -> M B) : M B :=
  fun w => let (a, w') := m w in k a w'.

Definition exec {A : Type} (m : M A) (w : World) : World := snd (m w).
Definition result {A : Type} (m : M A) (w : World) : A := fst (m w).

End Gtk.
Import Gtk.

Declare Scope gtk_scope.
Delimit Scope gtk_scope with gtk.
Notation "x <- m ;; k" := (bind m (fun x => k))
  (at level 61, m at next level, right associativity) : gtk_scope.
Notation "m ;; k" := (bind m (fun _ => k))
  (at level 61, right associativity) : gtk_scope.
Open Scope gtk_scope.

(** Append one call record to the log. *)
Definition call (c : Call) : M unit :=
  fun w => (tt, {| log := log w ++ [c]; next := next w;
                   signals := signals w; pages := pages w |}).

(** Hand out the next pointer. *)
Definition alloc : M gpointer :=
  fun w => (next w, {| log := log w; next := S (next w);
                       signals := signals w; pages := pages w |}).

Section Primitives.

Variable T : Toolkit.

Definition gtk_init : M unit := call c_gtk_init.

Definition gtk_application_new (application_id : string) (flags : Z) : M gpointer :=
  p <- alloc ;;
  call (c_gtk_application_new application_id flags p) ;;
  ret p.

(** Returns the handler id (a [gulong]), which the source discards. *)
Definition g_signal_connect (instance : gpointer) (detailed_signal : string)
    (c_handler : GCallback) (data : option gpointer) : M nat :=
  call (c_g_signal_connect instance detailed_signal c_handler data) ;;
  fun w => (S (List.length (signals w)),
            {| log := log w; next := next w;
               signals := signals w ++ [(instance, detailed_signal, c_handler)];
               pages := pages w |}).

Definition g_object_unref (object : gpointer) : M unit :=
  call (c_g_object_unref object).

Definition gtk_application_window_new (application : gpointer) : M gpointer :=
  p <- alloc ;;
  call (c_gtk_application_window_new application p) ;;
  ret p.

Definition gtk_window_set_title (window : gpointer) (title : string) : M unit :=
  call (c_gtk_window_set_title window title).

Definition gtk_window_set_default_size (window : gpointer) (width height : Z) : M unit :=
  call (c_gtk_window_set_default_size window width height).

Definition webkit_web_view_new : M gpointer :=
  p <- alloc ;;
  call (c_webkit_web_view_new p) ;;
  ret p.

Definition gtk_container_add (container widget : gpointer) : M unit :=
  call (c_gtk_container_add container widget).

(** The WebKit entry point has return type [void]: the
    request is logged, the engine notes the outcome for itself, and nothing
    comes back to the caller. *)
Definition webkit_web_view_load_uri (web_view : gpointer) (uri : string) : M unit :=
  call (c_webkit_web_view_load_uri web_view uri) ;;
  fun w => (tt, {| log := log w; next := next w; signals := signals w;
                   pages := pages w ++ [(web_view, uri, load_succeeds T uri)] |}).

Definition gtk_widget_show_all (widget : gpointer) : M unit :=
  call (c_gtk_widget_show_all widget).

(** ** The program *)

(** [static void on_activate(GtkApplication *app)] *)
Definition on_activate (app : gpointer) : M unit :=
  window <- gtk_application_window_new app ;;
  gtk_window_set_title window "Fedora Assistant AI" ;;
  gtk_window_set_default_size window 1200 800 ;;
  webview <- webkit_web_view_new ;;
  gtk_container_add window webview ;;
  webkit_web_view_load_uri webview "file:///usr/share/FedoraAssistant/index.html" ;;
  gtk_widget_show_all window.

(** Calling through a function pointer. *)
Definition invoke (cb : GCallback) (instance : gpointer) : M unit :=
  match cb with
  | cb_on_activate => on_activate instance
  end.

(** One emission of "activate" on [app]: the handlers connected to that
    signal of that object run in connection order. *)
Fixpoint emit_activate (app : gpointer)
    (hs : list (gpointer * string * GCallback)) : M unit :=
  match hs with
  | [] => ret tt
  | (o, s, cb) :: hs' =>
      (if Nat.eqb o app && String.eqb s "activate" then invoke cb app else ret tt) ;;
      emit_activate app hs'
  end.

Fixpoint main_loop (n : nat) (app : gpointer) : M unit :=
  match n with
  | O => ret tt
  | S k => (fun w => emit_activate app (signals w) w) ;; main_loop k app
  end.

(** Modelled from the spec: the toolkit's event loop is library code outside
    the repository.  Following section 2 of the specification, the run call
    blocks, the toolkit invokes the activation callback from inside it, and
    the call gives back the loop's integer status.  How many emissions occur
    and which status comes back are taken from [T]. *)
Definition g_application_run (application : gpointer) (argc : Z)
    (argv : list string) : M Z :=
  call (c_g_application_run application argc argv) ;;
  main_loop (activations T argc argv) application ;;
  call (r_g_application_run (loop_status T argc argv)) ;;
  ret (loop_status T argc argv).

(** [int main(int argc, char *argv[])] *)
Definition main (argc : Z) (argv : list string) : M Z :=
  gtk_init ;;
  app <- gtk_application_new "com.urmt.FedoraAssistant" G_APPLICATION_FLAGS_NONE ;;
  _ <- g_signal_connect app "activate" cb_on_activate None ;;
  status <- g_application_run app argc argv ;;
  g_object_unref app ;;
  ret status.

End Primitives.

(** ** Reading a log *)

Module Log.

Definition is_init (c : Call) : bool :=
  match c with c_gtk_init => true | _ => false end.

(** Calls that bring an application object or a widget into existence. *)
Definition is_creation (c : Call) : bool :=
  match c with
  | c_gtk_application_new _ _ _ | c_gtk_application_window_new _ _
  | c_webkit_web_view_new _ => true
  | _ => false
  end.

Definition is_show_all (c : Call) : bool :=
  match c with c_gtk_widget_show_all _ => true | _ => false end.

Definition count (p : Call -> bool) (l : list Call) : nat :=
  List.length (filter p l).

Definition pick {A : Type} (f : Call -> option A) (l : list Call) : list A :=
  flat_map (fun c => match f c with Some a => [a] | None => [] end) l.

Definition apps_created : list Call -> list gpointer :=
  pick (fun c => match c with c_gtk_application_new _ _ p => Some p | _ => None end).

Definition unrefs : list Call -> list gpointer :=
  pick (fun c => match c with c_g_object_unref p => Some p | _ => None end).

Definition run_calls : list Call -> list (gpointer * Z * list string) :=
  pick (fun c => match c with
                 | c_g_application_run a n v => Some (a, n, v)
                 | _ => None
                 end).

Definition run_returns : list Call -> list Z :=
  pick (fun c => match c with r_g_application_run s => Some s | _ => None end).

Definition windows_created : list Call -> list gpointer :=
  pick (fun c => match c with
                 | c_gtk_application_window_new _ p => Some p
                 | _ => None
                 end).

Definition views_created : list Call -> list gpointer :=
  pick (fun c => match c with c_webkit_web_view_new p => Some p | _ => None end).

Definition titles : list Call -> list (gpointer * string) :=
  pick (fun c => match c with
                 | c_gtk_window_set_title w t => Some (w, t)
                 | _ => None
                 end).

Definition default_sizes : list Call -> list (gpointer * Z * Z) :=
  pick (fun c => match c with
                 | c_gtk_window_set_default_size w x y => Some (w, x, y)
                 | _ => None
                 end).

Definition children : list Call -> list (gpointer * gpointer) :=
  pick (fun c => match c with c_gtk_container_add w x => Some (w, x) | _ => None end).

Definition loads : list Call -> list (gpointer * string) :=
  pick (fun c => match c with
                 | c_webkit_web_view_load_uri v u => Some (v, u)
                 | _ => None
                 end).

(** How many load commands in [l] address the view [v]. *)
Definition loads_on (v : gpointer) (l : list Call) : nat :=
  List.length (filter (fun vu => Nat.eqb (fst vu) v) (loads l)).

(** The calls a computation adds to the log when started in [w]. *)
Definition emitted {A : Type} (m : M A) (w : World) : list Call :=
  skipn (List.length (log w)) (log (exec m w)).

End Log.
Import Log.

(** ** What one activation and one whole run put on the log *)

Definition TITLE : string := "Fedora Assistant AI".
Definition INDEX_URI : string := "file:///usr/share/FedoraAssistant/index.html".

(** The calls of one handler invocation, given the application pointer and
    the first pointer the toolkit has free. *)
Definition activation_calls (app p : gpointer) : list Call :=
  [ c_gtk_application_window_new app p;
    c_gtk_window_set_title p TITLE;
    c_gtk_window_set_default_size p 1200 800;
    c_webkit_web_view_new (S p);
    c_gtk_container_add p (S p);
    c_webkit_web_view_load_uri (S p) INDEX_URI;
    c_gtk_widget_show_all p ].

Fixpoint session_calls (app p : gpointer) (n : nat) : list Call :=
  match n with
  | O => []
  | S k => activation_calls app p ++ session_calls app (S (S p)) k
  end.

Fixpoint session_pages (ok : bool) (p : gpointer) (n : nat)
    : list (gpointer * string * bool) :=
  match n with
  | O => []
  | S k => (S p, INDEX_URI, ok) :: session_pages ok (S (S p)) k
  end.

Definition prologue (argc : Z) (argv : list string) : list Call :=
  [ c_gtk_init;
    c_gtk_application_new "com.urmt.FedoraAssistant" 0 1;
    c_g_signal_connect 1 "activate" cb_on_activate None;
    c_g_application_run 1 argc argv ].

Definition epilogue (status : Z) : list Call :=
  [ r_g_application_run status; c_g_object_unref 1 ].

(** The views of a session: every second pointer, starting after the first
    window. *)
Fixpoint session_views (p : gpointer) (n : nat) : list gpointer :=
  match n with
  | O => []
  | S k => S p :: session_views (S (S p)) k
  end.

(** Two concrete toolkits for running the program: in the first the loop
    emits "activate" twice, returns 7 and the engine cannot load anything; in
    the second it emits once, returns 0 and every load succeeds. *)
Definition stub_toolkit : Toolkit :=
  {| activations := fun _ _ => 2%nat; loop_status := fun _ _ => 7%Z;
     load_succeeds := fun _ => false |}.

Definition plain_toolkit : Toolkit :=
  {| activations := fun _ _ => 1%nat; loop_status := fun _ _ => 0%Z;
     load_succeeds := fun _ => true |}.

(** ** Further readings of a log, for whole runs *)

Module Run.

Definition app_news : list Call -> list (string * Z * gpointer) :=
  pick (fun c => match c with
                 | c_gtk_application_new id fl p => Some (id, fl, p)
                 | _ => None
                 end).

Definition connects : list Call -> list (gpointer * string * GCallback * option gpointer) :=
  pick (fun c => match c with
                 | c_g_signal_connect o s cb d => Some (o, s, cb, d)
                 | _ => None
                 end).

(** Owner and result of every window constructor call. *)
Definition window_news : list Call -> list (gpointer * gpointer) :=
  pick (fun c => match c with
                 | c_gtk_application_window_new a p => Some (a, p)
                 | _ => None
                 end).

Definition shows : list Call -> list gpointer :=
  pick (fun c => match c with c_gtk_widget_show_all p => Some p | _ => None end).

Definition mem (p : gpointer) (l : list gpointer) : bool := existsb (Nat.eqb p) l.

(** Pointer discipline of a log, read from left to right: [apps], [ws] and
    [vs] are the applications, windows and web views that exist so far.  A
    call passes when every pointer it is given is an existing object of the
    kind the entry point expects; a constructor adds its result; releasing an
    application ends its existence, so that any later use of it fails. *)
Fixpoint well_scoped (apps ws vs : list gpointer) (l : list Call) : bool :=
  match l with
  | [] => true
  | c :: l' =>
      match c with
      | c_gtk_init => well_scoped apps ws vs l'
      | c_gtk_application_new _ _ p => well_scoped (p :: apps) ws vs l'
      | c_g_signal_connect o _ _ _ => mem o apps && well_scoped apps ws vs l'
      | c_g_application_run a _ _ => mem a apps && well_scoped apps ws vs l'
      | r_g_application_run _ => well_scoped apps ws vs l'
      | c_g_object_unref o =>
          mem o apps && well_scoped (remove Nat.eq_dec o apps) ws vs l'
      | c_gtk_application_window_new a p =>
          mem a apps && well_scoped apps (p :: ws) vs l'
      | c_gtk_window_set_title w _ => mem w ws && well_scoped apps ws vs l'
      | c_gtk_window_set_default_size w _ _ => mem w ws && well_scoped apps ws vs l'
      | c_webkit_web_view_new p => well_scoped apps ws (p :: vs) l'
      | c_gtk_container_add w v => mem w ws && mem v vs && well_scoped apps ws vs l'
      | c_webkit_web_view_load_uri v _ => mem v vs && well_scoped apps ws vs l'
      | c_gtk_widget_show_all w => (mem w ws || mem w vs) && well_scoped apps ws vs l'
      end
  end.

End Run.
Import Run.

(** The windows of a session: every second pointer, starting with the first
    free one. *)
Fixpoint session_windows (p : gpointer) (n : nat) : list gpointer :=
  match n with
  | O => []
  | S k => p :: session_windows (S (S p)) k
  end.

(** A toolkit whose loop never emits "activate" (as for a process that finds
    a primary instance already running) and returns 3. *)
Definition quiet_toolkit : Toolkit :=
  {| activations := fun _ _ => 0%nat; loop_status := fun _ _ => 3%Z;
     load_succeeds := fun _ => true |}.

(** As [stub_toolkit], except that every load succeeds. *)
Definition lucky_toolkit : Toolkit :=
  {| activations := fun _ _ => 2%nat; loop_status := fun _ _ => 7%Z;
     load_succeeds := fun _ => true |}.

(** ** Evaluating the program *)

Section Characterisation.

Variable T : Toolkit.

Ltac run_prims :=
  unfold on_activate, gtk_application_window_new, gtk_window_set_title,
    gtk_window_set_default_size, webkit_web_view_new, gtk_container_add,
    webkit_web_view_load_uri, gtk_widget_show_all, gtk_init,
    gtk_application_new, g_signal_connect, g_object_unref,
    bind, call, alloc, ret; simpl.

Lemma on_activate_run (app : gpointer) (w : World) :
  on_activate T app w =
  (tt, {| log := log w ++ activation_calls app (next w);
          next := S (S (next w));
          signals := signals w;
          pages := pages w ++ [(S (next w), INDEX_URI, load_succeeds T INDEX_URI)] |}).
Proof.
  run_prims. unfold activation_calls.
  repeat rewrite <- app_assoc. reflexivity.
Qed.

Lemma emit_activate_single (app : gpointer) (w : World) :
  emit_activate T app [(app, "activate", cb_on_activate)] w = on_activate T app w.
Proof.
  simpl. rewrite Nat.eqb_refl. simpl.
  unfold bind, invoke, ret. destruct (on_activate T app w) as [[] w']. reflexivity.
Qed.

Lemma main_loop_run (n : nat) (app : gpointer) :
  forall w : World,
    signals w = [(app, "activate", cb_on_activate)] ->
    main_loop T n app w =
    (tt, {| log := log w ++ session_calls app (next w) n;
            next := 2 * n + next w;
            signals := signals w;
            pages := pages w ++ session_pages (load_succeeds T INDEX_URI) (next w) n |}).
Proof.
  induction n as [|k IH]; intros w Hs.
  - simpl. unfold ret. rewrite !app_nil_r. destruct w; reflexivity.
  - cbn [main_loop]. unfold bind at 1. rewrite Hs, emit_activate_single, on_activate_run.
    rewrite IH by (simpl; exact Hs).
    cbn [log next signals pages session_calls session_pages].
    rewrite <- !app_assoc. cbn [List.app].
    replace (2 * k + S (S (next w))) with (2 * S k + next w) by lia.
    rewrite Hs. reflexivity.
Qed.

Lemma main_run (argc : Z) (argv : list string) :
  main T argc argv world0 =
  (loop_status T argc argv,
   {| log := prologue argc argv
             ++ session_calls 1 2 (activations T argc argv)
             ++ epilogue (loop_status T argc argv);
      next := 2 * activations T argc argv + 2;
      signals := [(1, "activate", cb_on_activate)];
      pages := session_pages (load_succeeds T INDEX_URI) 2 (activations T argc argv) |}).
Proof.
  unfold main, g_application_run.
  run_prims.
  rewrite main_loop_run by reflexivity.
  cbn [log next signals pages].
  unfold prologue, epilogue, G_APPLICATION_FLAGS_NONE.
  repeat rewrite <- app_assoc. reflexivity.
Qed.

End Characterisation.

(** ** Auxiliary facts about logs *)

Section LogFacts.

Lemma skipn_past {A : Type} (l r : list A) : skipn (List.length l) (l ++ r) = r.
Proof. induction l as [|a l IH]; simpl; auto. Qed.

Lemma pick_app {A : Type} (f : Call -> option A) (l r : list Call) :
  pick f (l ++ r) = pick f l ++ pick f r.
Proof. unfold pick. apply flat_map_app. Qed.

Lemma count_app (p : Call -> bool) (l r : list Call) :
  count p (l ++ r) = count p l + count p r.
Proof. unfold count. rewrite filter_app, length_app. reflexivity. Qed.

Lemma pick_session_nil {A : Type} (f : Call -> option A) :
  (forall app q, pick f (activation_calls app q) = []) ->
  forall n app p, pick f (session_calls app p n) = [].
Proof.
  intros H n. induction n as [|k IH]; intros app p; simpl.
  - reflexivity.
  - change (pick f (activation_calls app p ++ session_calls app (S (S p)) k) = []).
    rewrite pick_app, H, IH. reflexivity.
Qed.

Lemma count_session_zero (q : Call -> bool) :
  (forall app p, count q (activation_calls app p) = 0) ->
  forall n app p, count q (session_calls app p n) = 0.
Proof.
  intros H n. induction n as [|k IH]; intros app p.
  - reflexivity.
  - cbn [session_calls]. rewrite count_app, H, IH. reflexivity.
Qed.

Lemma views_created_session (n : nat) :
  forall app p, views_created (session_calls app p n) = session_views p n.
Proof.
  induction n as [|k IH]; intros app p.
  - reflexivity.
  - cbn [session_calls session_views]. unfold views_created in *.
    rewrite pick_app, IH. reflexivity.
Qed.

Lemma loads_session (n : nat) :
  forall app p,
    loads (session_calls app p n) = map (fun v => (v, INDEX_URI)) (session_views p n).
Proof.
  induction n as [|k IH]; intros app p.
  - reflexivity.
  - cbn [session_calls session_views]. unfold loads in *.
    rewrite pick_app, IH. reflexivity.
Qed.

Lemma session_views_length (n : nat) : forall p, List.length (session_views p n) = n.
Proof. induction n as [|k IH]; intros p; simpl; auto. Qed.

Lemma session_views_above (n : nat) :
  forall p v, In v (session_views p n) -> p < v.
Proof.
  induction n as [|k IH]; intros p v; simpl.
  - tauto.
  - intros [<- | Hin]; [lia | apply IH in Hin; lia].
Qed.

Lemma session_views_NoDup (n : nat) : forall p, NoDup (session_views p n).
Proof.
  induction n as [|k IH]; intros p; simpl; constructor.
  - intros Hin. apply session_views_above in Hin. lia.
  - apply IH.
Qed.

(** In a duplicate-free list of views, each loaded once, a pointer receives
    one load if it is among them and none otherwise. *)
Lemma loads_on_views (uri : string) (vs : list gpointer) (v : gpointer) :
  NoDup vs ->
  List.length (filter (fun vu : gpointer * string => Nat.eqb (fst vu) v)
                      (map (fun x => (x, uri)) vs))
  = if existsb (Nat.eqb v) vs then 1 else 0.
Proof.
  induction 1 as [|x vs Hx Hnd IH]; simpl.
  - reflexivity.
  - rewrite (Nat.eqb_sym v x). destruct (Nat.eqb x v) eqn:E; simpl.
    + apply Nat.eqb_eq in E; subst x. rewrite IH.
      destruct (existsb (Nat.eqb v) vs) eqn:Ex; [|reflexivity].
      apply existsb_exists in Ex. destruct Ex as [y [Hy Ey]].
      apply Nat.eqb_eq in Ey; subst y. contradiction.
    + exact IH.
Qed.

Lemma emitted_on_activate (T : Toolkit) (app : gpointer) (w : World) :
  emitted (on_activate T app) w = activation_calls app (next w).
Proof.
  unfold emitted, exec. rewrite on_activate_run. simpl. apply skipn_past.
Qed.

Lemma main_log (T : Toolkit) (argc : Z) (argv : list string) :
  log (exec (main T argc argv) world0) =
  prologue argc argv ++ session_calls 1 2 (activations T argc argv)
    ++ epilogue (loop_status T argc argv).
Proof. unfold exec. rewrite main_run. reflexivity. Qed.

Lemma main_result (T : Toolkit) (argc : Z) (argv : list string) :
  result (main T argc argv) world0 = loop_status T argc argv.
Proof. unfold result. rewrite main_run. reflexivity. Qed.

End LogFacts.

Example main_stub_status : result (main stub_toolkit 1 ["fa"]) world0 = 7%Z.
Proof. reflexivity. Qed.

Example main_plain_log :
  log (exec (main plain_toolkit 2 ["fa"; "--verbose"]) world0) =
  [ c_gtk_init;
    c_gtk_application_new "com.urmt.FedoraAssistant" 0 1;
    c_g_signal_connect 1 "activate" cb_on_activate None;
    c_g_application_run 1 2 ["fa"; "--verbose"];
    c_gtk_application_window_new 1 2;
    c_gtk_window_set_title 2 "Fedora Assistant AI";
    c_gtk_window_set_default_size 2 1200 800;
    c_webkit_web_view_new 3;
    c_gtk_container_add 2 3;
    c_webkit_web_view_load_uri 3 "file:///usr/share/FedoraAssistant/index.html";
    c_gtk_widget_show_all 2;
    r_g_application_run 0;
    c_g_object_unref 1 ].
Proof. reflexivity. Qed.

(** ** The bootstrap: [main] *)

(** C1.  In every run, the value [main] returns is the status the event-loop
    run call gave back: the log holds one return of [g_application_run], and
    the status recorded there is the result of [main]. *)
Theorem main_returns_loop_status (T : Toolkit) (argc : Z) (argv : list string) :
  run_returns (log (exec (main T argc argv) world0))
    = [result (main T argc argv) world0]
  /\ result (main T argc argv) world0 = loop_status T argc argv.
Proof.
  rewrite main_log, main_result. split; [|reflexivity].
  unfold run_returns. rewrite !pick_app.
  rewrite pick_session_nil by reflexivity. reflexivity.
Qed.

(** C5.  In every run, one application object is created, one
    [g_object_unref] is issued and it names that object; the release is the
    last call of the run and directly follows the return of the event loop,
    which has not returned before. *)
Theorem one_application_one_release (T : Toolkit) (argc : Z) (argv : list string) :
  exists (app : gpointer) (before : list Call),
    apps_created (log (exec (main T argc argv) world0)) = [app]
    /\ unrefs (log (exec (main T argc argv) world0)) = [app]
    /\ log (exec (main T argc argv) world0)
       = before ++ [ r_g_application_run (result (main T argc argv) world0);
                     c_g_object_unref app ]
    /\ run_returns before = []
    /\ unrefs before = [].
Proof.
  exists 1, (prologue argc argv ++ session_calls 1 2 (activations T argc argv)).
  rewrite main_log, main_result.
  unfold apps_created, unrefs, run_returns. rewrite !pick_app.
  rewrite !pick_session_nil by reflexivity.
  repeat split; reflexivity.
Qed.

(** C6.  The run opens with [gtk_init()], the application constructor and
    the signal connection, none of which takes the process arguments, and the
    next call is [g_application_run] with exactly the [argc] and [argv] that
    [main] received; it is the only run call. *)
Theorem arguments_forwarded (T : Toolkit) (argc : Z) (argv : list string) :
  firstn 4 (log (exec (main T argc argv) world0))
    = [ c_gtk_init;
        c_gtk_application_new "com.urmt.FedoraAssistant" G_APPLICATION_FLAGS_NONE 1;
        c_g_signal_connect 1 "activate" cb_on_activate None;
        c_g_application_run 1 argc argv ]
  /\ run_calls (log (exec (main T argc argv) world0)) = [(1, argc, argv)].
Proof.
  rewrite main_log. split; [reflexivity|].
  unfold run_calls. rewrite !pick_app.
  rewrite pick_session_nil by reflexivity. reflexivity.
Qed.

(** C7.  In every run [gtk_init] is called once, and whenever the log reaches
    a call that creates the application object, a window or a web view,
    [gtk_init] is already among the calls before it. *)
Theorem init_once_before_creation (T : Toolkit) (argc : Z) (argv : list string) :
  count is_init (log (exec (main T argc argv) world0)) = 1
  /\ forall (before : list Call) (c : Call) (after : list Call),
       log (exec (main T argc argv) world0) = before ++ c :: after ->
       is_creation c = true ->
       In c_gtk_init before.
Proof.
  rewrite main_log. split.
  - rewrite !count_app, count_session_zero by reflexivity. reflexivity.
  - intros before c after Hsplit Hc.
    destruct before as [|b before'].
    + simpl in Hsplit. injection Hsplit as Hhd _. subst c. discriminate Hc.
    + simpl in Hsplit. injection Hsplit as Hhd _. subst b. left. reflexivity.
Qed.

Lemma init_once_before_creation_witness :
  log (exec (main stub_toolkit 1 ["fa"]) world0)
    = [ c_gtk_init;
        c_gtk_application_new "com.urmt.FedoraAssistant" 0 1;
        c_g_signal_connect 1 "activate" cb_on_activate None;
        c_g_application_run 1 1 ["fa"] ]
      ++ c_gtk_application_window_new 1 2
      :: skipn 5 (log (exec (main stub_toolkit 1 ["fa"]) world0))
  /\ is_creation (c_gtk_application_window_new 1 2) = true
  /\ In c_gtk_init
       [ c_gtk_init;
         c_gtk_application_new "com.urmt.FedoraAssistant" 0 1;
         c_g_signal_connect 1 "activate" cb_on_activate None;
         c_g_application_run 1 1 ["fa"] ].
Proof.
  split; [vm_compute; reflexivity | split; [reflexivity |]].
  apply (proj2 (init_once_before_creation stub_toolkit 1 ["fa"])
           (firstn 4 (log (exec (main stub_toolkit 1 ["fa"]) world0)))
           (c_gtk_application_window_new 1 2)
           (skipn 5 (log (exec (main stub_toolkit 1 ["fa"]) world0))));
    vm_compute; reflexivity.
Defined.

(** ** The activation handler: [on_activate] *)

(** C3.  Whatever the application pointer and the state of the toolkit, one
    invocation of the handler sets the title of the window it has just
    created to "Fedora Assistant AI" and its default size to 1200 by 800, and
    sets no other title or size. *)
Theorem window_title_and_size (T : Toolkit) (app : gpointer) (w : World) :
  exists window : gpointer,
    windows_created (emitted (on_activate T app) w) = [window]
    /\ titles (emitted (on_activate T app) w) = [(window, "Fedora Assistant AI")]
    /\ default_sizes (emitted (on_activate T app) w) = [(window, 1200%Z, 800%Z)].
Proof.
  exists (next w). rewrite emitted_on_activate. repeat split.
Qed.

(** C4.  One invocation of the handler constructs one window, owned by the
    application it was given, constructs one web view, and issues one
    [gtk_container_add], which puts that view into that window. *)
Theorem one_window_one_child (T : Toolkit) (app : gpointer) (w : World) :
  exists window view : gpointer,
    windows_created (emitted (on_activate T app) w) = [window]
    /\ In (c_gtk_application_window_new app window) (emitted (on_activate T app) w)
    /\ views_created (emitted (on_activate T app) w) = [view]
    /\ children (emitted (on_activate T app) w) = [(window, view)]
    /\ window <> view.
Proof.
  exists (next w), (S (next w)). rewrite emitted_on_activate.
  repeat split; try (left; reflexivity). apply Nat.neq_succ_diag_r.
Qed.

(** C10.  The calls of one invocation end with [gtk_widget_show_all] on the
    window; setting the title, setting the default size, adding the view and
    issuing the load all lie before it, and it occurs only there. *)
Theorem show_all_is_last (T : Toolkit) (app : gpointer) (w : World) :
  exists (window view : gpointer) (before : list Call),
    emitted (on_activate T app) w = before ++ [c_gtk_widget_show_all window]
    /\ log (exec (on_activate T app) w)
       = (log w ++ before) ++ [c_gtk_widget_show_all window]
    /\ In (c_gtk_window_set_title window "Fedora Assistant AI") before
    /\ In (c_gtk_window_set_default_size window 1200 800) before
    /\ In (c_gtk_container_add window view) before
    /\ In (c_webkit_web_view_load_uri view
             "file:///usr/share/FedoraAssistant/index.html") before
    /\ count is_show_all before = 0.
Proof.
  exists (next w), (S (next w)), (removelast (activation_calls app (next w))).
  rewrite emitted_on_activate. unfold exec. rewrite on_activate_run.
  cbn [snd log]. rewrite <- app_assoc.
  repeat split; cbn; tauto.
Qed.

(** C9.  The handler has no error path.  Run against two toolkits that may
    disagree on whether the load succeeds, and from two states of the world
    that may differ in everything but the next free pointer, it returns the
    unit value, makes the same calls with the same arguments and leaves the
    signal table as it found it. *)
Theorem on_activate_ignores_load_outcome
    (T1 T2 : Toolkit) (app : gpointer) (w1 w2 : World) :
  next w1 = next w2 ->
  result (on_activate T1 app) w1 = tt
  /\ emitted (on_activate T1 app) w1 = emitted (on_activate T2 app) w2
  /\ List.length (emitted (on_activate T1 app) w1) = 7
  /\ next (exec (on_activate T1 app) w1) = next (exec (on_activate T2 app) w2)
  /\ signals (exec (on_activate T1 app) w1) = signals w1.
Proof.
  intros Hnext. rewrite !emitted_on_activate. unfold result, exec.
  rewrite !on_activate_run. cbn [fst snd next signals]. rewrite Hnext.
  repeat split.
Qed.

Lemma on_activate_ignores_load_outcome_witness :
  next world0 = next {| log := [c_gtk_init]; next := 1; signals := [];
                        pages := [(9, "about:blank", true)] |}
  /\ pages (exec (on_activate plain_toolkit 1) world0)
     <> pages (exec (on_activate stub_toolkit 1) world0)
  /\ (result (on_activate plain_toolkit 1) world0 = tt
      /\ emitted (on_activate plain_toolkit 1) world0
         = emitted (on_activate stub_toolkit 1)
             {| log := [c_gtk_init]; next := 1; signals := [];
                pages := [(9, "about:blank", true)] |}
      /\ List.length (emitted (on_activate plain_toolkit 1) world0) = 7
      /\ next (exec (on_activate plain_toolkit 1) world0)
         = next (exec (on_activate stub_toolkit 1)
                   {| log := [c_gtk_init]; next := 1; signals := [];
                      pages := [(9, "about:blank", true)] |})
      /\ signals (exec (on_activate plain_toolkit 1) world0) = signals world0).
Proof.
  split; [reflexivity | split; [vm_compute; discriminate |]].
  apply (on_activate_ignores_load_outcome plain_toolkit stub_toolkit 1 world0
           {| log := [c_gtk_init]; next := 1; signals := [];
              pages := [(9, "about:blank", true)] |}).
  reflexivity.
Defined.

(** ** Load commands over a whole run *)

Lemma main_loads (T : Toolkit) (argc : Z) (argv : list string) :
  loads (log (exec (main T argc argv) world0))
  = map (fun v => (v, INDEX_URI)) (session_views 2 (activations T argc argv)).
Proof.
  rewrite main_log. unfold loads. rewrite !pick_app.
  fold loads. rewrite loads_session. cbn. apply app_nil_r.
Qed.

Lemma main_views (T : Toolkit) (argc : Z) (argv : list string) :
  views_created (log (exec (main T argc argv) world0))
  = session_views 2 (activations T argc argv).
Proof.
  rewrite main_log. unfold views_created. rewrite !pick_app.
  fold views_created. rewrite views_created_session. cbn. apply app_nil_r.
Qed.

(** C2.  Take two runs, with any two argument vectors and any two behaviours
    of the toolkit.  A load command found in the first and a load command
    found in the second carry the same URI, namely
    file:///usr/share/FedoraAssistant/index.html. *)
Theorem loaded_uri_independent_of_arguments
    (T1 T2 : Toolkit) (argc1 argc2 : Z) (argv1 argv2 : list string)
    (v1 v2 : gpointer) (u1 u2 : string) :
  In (v1, u1) (loads (log (exec (main T1 argc1 argv1) world0))) ->
  In (v2, u2) (loads (log (exec (main T2 argc2 argv2) world0))) ->
  u1 = "file:///usr/share/FedoraAssistant/index.html" /\ u2 = u1.
Proof.
  rewrite !main_loads. intros H1 H2.
  apply in_map_iff in H1. destruct H1 as [x1 [E1 _]].
  apply in_map_iff in H2. destruct H2 as [x2 [E2 _]].
  injection E1 as _ <-. injection E2 as _ <-. split; reflexivity.
Qed.

Lemma loaded_uri_independent_of_arguments_witness :
  In (3, "file:///usr/share/FedoraAssistant/index.html")
     (loads (log (exec (main stub_toolkit 1 ["fa"]) world0)))
  /\ In (3, "file:///usr/share/FedoraAssistant/index.html")
        (loads (log (exec (main plain_toolkit 3
                             ["fa"; "--uri"; "https://example.org/"]) world0)))
  /\ ("file:///usr/share/FedoraAssistant/index.html"
        = "file:///usr/share/FedoraAssistant/index.html"
      /\ "file:///usr/share/FedoraAssistant/index.html"
        = "file:///usr/share/FedoraAssistant/index.html").
Proof.
  split; [vm_compute; tauto | split; [vm_compute; tauto |]].
  apply (loaded_uri_independent_of_arguments stub_toolkit plain_toolkit
           1 3 ["fa"] ["fa"; "--uri"; "https://example.org/"] 3 3);
    vm_compute; tauto.
Defined.

(** C8.  One invocation of the handler constructs one view and issues one
    load, addressed to that view.  Over a whole run there are as many load
    commands as activations, so [main] itself adds none, and a pointer
    receives one load command if it is a view constructed during the run and
    none otherwise: no view is loaded a second time. *)
Theorem uri_assigned_once (T : Toolkit) (argc : Z) (argv : list string) :
  (forall (app : gpointer) (w : World),
      exists view : gpointer,
        views_created (emitted (on_activate T app) w) = [view]
        /\ loads (emitted (on_activate T app) w)
           = [(view, "file:///usr/share/FedoraAssistant/index.html")])
  /\ List.length (loads (log (exec (main T argc argv) world0)))
     = activations T argc argv
  /\ forall v : gpointer,
       loads_on v (log (exec (main T argc argv) world0))
       = if existsb (Nat.eqb v) (views_created (log (exec (main T argc argv) world0)))
         then 1 else 0.
Proof.
  split; [|split].
  - intros app w. exists (S (next w)). rewrite emitted_on_activate. split; reflexivity.
  - rewrite main_loads, length_map. apply session_views_length.
  - intros v. unfold loads_on. rewrite main_loads, main_views.
    apply loads_on_views, session_views_NoDup.
Qed.

Example stub_loads_per_pointer :
  map (fun v => loads_on v (log (exec (main stub_toolkit 1 ["fa"]) world0)))
      [0; 1; 2; 3; 4; 5; 6]
  = [0; 0; 0; 1; 0; 1; 0].
Proof. vm_compute. reflexivity. Qed.

(** ** Whole runs: what every activation adds and what none of them touches *)

Section RunFacts.

Lemma flat_map_single {A B : Type} (h : A -> B) (l : list A) :
  flat_map (fun a => [h a]) l = map h l.
Proof. induction l as [|a l IH]; simpl; [reflexivity | now rewrite IH]. Qed.

(** A reading that yields [g app q] on the calls of one activation yields,
    on a session, those values for each window of the session in turn. *)
Lemma pick_session_windows {A : Type} (f : Call -> option A)
    (g : gpointer -> gpointer -> list A) :
  (forall app q, pick f (activation_calls app q) = g app q) ->
  forall n app p,
    pick f (session_calls app p n) = flat_map (g app) (session_windows p n).
Proof.
  intros H n. induction n as [|k IH]; intros app p.
  - reflexivity.
  - cbn [session_calls session_windows flat_map].
    rewrite pick_app, H, IH. reflexivity.
Qed.

Lemma session_windows_length (n : nat) :
  forall p, List.length (session_windows p n) = n.
Proof. induction n as [|k IH]; intros p; simpl; auto. Qed.

Lemma session_windows_from (n : nat) :
  forall p x, In x (session_windows p n) -> p <= x.
Proof.
  induction n as [|k IH]; intros p x; simpl.
  - tauto.
  - intros [<- | Hin]; [lia | apply IH in Hin; lia].
Qed.

Lemma session_windows_NoDup (n : nat) : forall p, NoDup (session_windows p n).
Proof.
  induction n as [|k IH]; intros p; simpl; constructor.
  - intros Hin. apply session_windows_from in Hin. lia.
  - apply IH.
Qed.

Lemma session_views_windows (n : nat) :
  forall p, session_views p n = map S (session_windows p n).
Proof.
  induction n as [|k IH]; intros p; simpl; [reflexivity | now rewrite IH].
Qed.

Lemma main_pick {A : Type} (f : Call -> option A)
    (g : gpointer -> gpointer -> list A)
    (T : Toolkit) (argc : Z) (argv : list string) :
  (forall app q, pick f (activation_calls app q) = g app q) ->
  pick f (log (exec (main T argc argv) world0))
  = pick f (prologue argc argv)
    ++ flat_map (g 1) (session_windows 2 (activations T argc argv))
    ++ pick f (epilogue (loop_status T argc argv)).
Proof.
  intros H. rewrite main_log, !pick_app.
  rewrite (pick_session_windows f g H). reflexivity.
Qed.

Lemma main_windows (T : Toolkit) (argc : Z) (argv : list string) :
  windows_created (log (exec (main T argc argv) world0))
  = session_windows 2 (activations T argc argv).
Proof.
  unfold windows_created.
  rewrite (main_pick _ (fun _ q => [q])) by reflexivity.
  cbn [pick prologue epilogue flat_map List.app].
  rewrite app_nil_r, (flat_map_single (fun q => q)). apply map_id.
Qed.


End RunFacts.

Lemma combine_with_successors (l : list gpointer) :
  combine l (map S l) = map (fun q => (q, S q)) l.
Proof. induction l as [|a l IH]; simpl; [reflexivity | now rewrite IH]. Qed.

Lemma flat_map_none {A B : Type} (l : list A) :
  flat_map (fun _ : A => @nil B) l = [].
Proof. induction l as [|a l IH]; simpl; auto. Qed.

(** X1.  In every run the application object is constructed once, with the
    identifier com.urmt.FedoraAssistant and no flags; one handler is
    connected, [on_activate] with a NULL data pointer on the "activate"
    signal of that object, and the handler never connects another; the object
    handed to the run call is that same object. *)
Theorem application_registered_once (T : Toolkit) (argc : Z) (argv : list string) :
  exists app : gpointer,
    app_news (log (exec (main T argc argv) world0))
      = [("com.urmt.FedoraAssistant", G_APPLICATION_FLAGS_NONE, app)]
    /\ connects (log (exec (main T argc argv) world0))
      = [(app, "activate", cb_on_activate, None)]
    /\ run_calls (log (exec (main T argc argv) world0)) = [(app, argc, argv)].
Proof.
  exists 1. unfold app_news, connects, run_calls.
  rewrite !(main_pick _ (fun _ _ => [])) by reflexivity.
  rewrite !flat_map_none.
  repeat split.
Qed.

(** X2.  A run constructs as many windows as the loop emits "activate": the
    handler has no guard against a repeated activation and builds a new
    window each time.  The windows are pairwise distinct, and every window
    constructor call names the one application object of the run. *)
Theorem window_per_activation (T : Toolkit) (argc : Z) (argv : list string) :
  exists app : gpointer,
    apps_created (log (exec (main T argc argv) world0)) = [app]
    /\ List.length (windows_created (log (exec (main T argc argv) world0)))
       = activations T argc argv
    /\ NoDup (windows_created (log (exec (main T argc argv) world0)))
    /\ window_news (log (exec (main T argc argv) world0))
       = map (fun win => (app, win))
             (windows_created (log (exec (main T argc argv) world0))).
Proof.
  exists 1. rewrite main_windows. repeat split.
  - unfold apps_created. rewrite (main_pick _ (fun _ _ => [])) by reflexivity.
    rewrite flat_map_none. reflexivity.
  - apply session_windows_length.
  - apply session_windows_NoDup.
  - unfold window_news.
    rewrite (main_pick _ (fun a q => [(a, q)])) by reflexivity.
    cbn [pick prologue epilogue flat_map List.app].
    rewrite app_nil_r. apply flat_map_single.
Qed.

(** X3.  Over a whole run the [gtk_container_add] calls pair the windows
    with the web views in order of construction: the k-th window receives the
    k-th view and nothing else, no view is added to two windows, and there
    are as many views as windows. *)
Theorem windows_and_views_paired (T : Toolkit) (argc : Z) (argv : list string) :
  children (log (exec (main T argc argv) world0))
    = combine (windows_created (log (exec (main T argc argv) world0)))
              (views_created (log (exec (main T argc argv) world0)))
  /\ List.length (views_created (log (exec (main T argc argv) world0)))
     = List.length (windows_created (log (exec (main T argc argv) world0)))
  /\ NoDup (windows_created (log (exec (main T argc argv) world0)))
  /\ NoDup (views_created (log (exec (main T argc argv) world0))).
Proof.
  rewrite main_windows, main_views. repeat split.
  - unfold children.
    rewrite (main_pick _ (fun _ q => [(q, S q)])) by reflexivity.
    cbn [pick prologue epilogue flat_map List.app].
    rewrite app_nil_r, flat_map_single, session_views_windows.
    symmetry. apply combine_with_successors.
  - rewrite session_views_length, session_windows_length. reflexivity.
  - apply session_windows_NoDup.
  - apply session_views_NoDup.
Qed.

(** X4.  Every window a run constructs is given the title
    "Fedora Assistant AI" once, the default size 1200 by 800 once, and is
    shown once; no other title or size is set and nothing else is shown. *)
Theorem every_window_configured_and_shown
    (T : Toolkit) (argc : Z) (argv : list string) :
  titles (log (exec (main T argc argv) world0))
    = map (fun win => (win, "Fedora Assistant AI"))
          (windows_created (log (exec (main T argc argv) world0)))
  /\ default_sizes (log (exec (main T argc argv) world0))
    = map (fun win => (win, 1200%Z, 800%Z))
          (windows_created (log (exec (main T argc argv) world0)))
  /\ shows (log (exec (main T argc argv) world0))
    = windows_created (log (exec (main T argc argv) world0)).
Proof.
  rewrite main_windows. repeat split.
  - unfold titles.
    rewrite (main_pick _ (fun _ q => [(q, TITLE)])) by reflexivity.
    cbn [pick prologue epilogue flat_map List.app].
    rewrite app_nil_r. apply flat_map_single.
  - unfold default_sizes.
    rewrite (main_pick _ (fun _ q => [(q, 1200%Z, 800%Z)])) by reflexivity.
    cbn [pick prologue epilogue flat_map List.app].
    rewrite app_nil_r. apply flat_map_single.
  - unfold shows.
    rewrite (main_pick _ (fun _ q => [q])) by reflexivity.
    cbn [pick prologue epilogue flat_map List.app].
    rewrite app_nil_r, (flat_map_single (fun q => q)). apply map_id.
Qed.


Example well_scoped_rejects_use_after_release :
  well_scoped [] [] []
    [ c_gtk_init; c_gtk_application_new "com.urmt.FedoraAssistant" 0 1;
      c_g_object_unref 1; c_g_application_run 1 0 [] ] = false.
Proof. reflexivity. Qed.

Example well_scoped_rejects_load_on_window :
  well_scoped [] [] []
    [ c_gtk_init; c_gtk_application_new "com.urmt.FedoraAssistant" 0 1;
      c_gtk_application_window_new 1 2;
      c_webkit_web_view_load_uri 2 "file:///usr/share/FedoraAssistant/index.html" ]
  = false.
Proof. reflexivity. Qed.

(** X6.  When the loop emits no activation, the run consists of six calls:
    no window and no view is built and nothing is loaded or shown, yet the
    application is still created and released and the loop's status is still
    the result. *)
Theorem no_activation_no_window (T : Toolkit) (argc : Z) (argv : list string) :
  activations T argc argv = 0 ->
  log (exec (main T argc argv) world0)
    = [ c_gtk_init;
        c_gtk_application_new "com.urmt.FedoraAssistant" G_APPLICATION_FLAGS_NONE 1;
        c_g_signal_connect 1 "activate" cb_on_activate None;
        c_g_application_run 1 argc argv;
        r_g_application_run (loop_status T argc argv);
        c_g_object_unref 1 ]
  /\ result (main T argc argv) world0 = loop_status T argc argv.
Proof.
  intros H0. rewrite main_log, main_result, H0. split; reflexivity.
Qed.

Lemma no_activation_no_window_witness :
  activations quiet_toolkit 1 ["fa"] = 0
  /\ (log (exec (main quiet_toolkit 1 ["fa"]) world0)
      = [ c_gtk_init;
          c_gtk_application_new "com.urmt.FedoraAssistant" G_APPLICATION_FLAGS_NONE 1;
          c_g_signal_connect 1 "activate" cb_on_activate None;
          c_g_application_run 1 1 ["fa"];
          r_g_application_run (loop_status quiet_toolkit 1 ["fa"]);
          c_g_object_unref 1 ]
      /\ result (main quiet_toolkit 1 ["fa"]) world0
         = loop_status quiet_toolkit 1 ["fa"]).
Proof.
  split; [reflexivity |].
  apply (no_activation_no_window quiet_toolkit 1 ["fa"]). reflexivity.
Defined.

(** X7.  [main] never reacts to the outcome of a load.  Two toolkits that
    emit the same number of activations and return the same status, but
    differ freely in which loads succeed, see the same calls with the same
    arguments and the same result. *)
Theorem run_ignores_load_outcome
    (T1 T2 : Toolkit) (argc : Z) (argv : list string) :
  activations T1 argc argv = activations T2 argc argv ->
  loop_status T1 argc argv = loop_status T2 argc argv ->
  log (exec (main T1 argc argv) world0) = log (exec (main T2 argc argv) world0)
  /\ result (main T1 argc argv) world0 = result (main T2 argc argv) world0.
Proof.
  intros Ha Hs. rewrite !main_log, !main_result, Ha, Hs. split; reflexivity.
Qed.

Lemma run_ignores_load_outcome_witness :
  activations stub_toolkit 1 ["fa"] = activations lucky_toolkit 1 ["fa"]
  /\ loop_status stub_toolkit 1 ["fa"] = loop_status lucky_toolkit 1 ["fa"]
  /\ pages (exec (main stub_toolkit 1 ["fa"]) world0)
     <> pages (exec (main lucky_toolkit 1 ["fa"]) world0)
  /\ (log (exec (main stub_toolkit 1 ["fa"]) world0)
      = log (exec (main lucky_toolkit 1 ["fa"]) world0)
      /\ result (main stub_toolkit 1 ["fa"]) world0
         = result (main lucky_toolkit 1 ["fa"]) world0).
Proof.
  split; [reflexivity | split; [reflexivity | split; [vm_compute; discriminate |]]].
  apply (run_ignores_load_outcome stub_toolkit lucky_toolkit 1 ["fa"]);
    reflexivity.
Defined.

(** X8.  The process arguments reach the run call and nothing else.  If the
    toolkit reacts to two argument vectors with the same number of
    activations and the same status, the two runs agree on the three calls
    before the run call and on every call after it; the fourth call is the
    run call with the respective arguments. *)
Theorem arguments_reach_only_run_call
    (T : Toolkit) (argc1 argc2 : Z) (argv1 argv2 : list string) :
  activations T argc1 argv1 = activations T argc2 argv2 ->
  loop_status T argc1 argv1 = loop_status T argc2 argv2 ->
  firstn 3 (log (exec (main T argc1 argv1) world0))
    = firstn 3 (log (exec (main T argc2 argv2) world0))
  /\ nth_error (log (exec (main T argc1 argv1) world0)) 3
     = Some (c_g_application_run 1 argc1 argv1)
  /\ nth_error (log (exec (main T argc2 argv2) world0)) 3
     = Some (c_g_application_run 1 argc2 argv2)
  /\ skipn 4 (log (exec (main T argc1 argv1) world0))
     = skipn 4 (log (exec (main T argc2 argv2) world0)).
Proof.
  intros Ha Hs. rewrite !main_log, Ha, Hs. repeat split.
Qed.

Lemma arguments_reach_only_run_call_witness :
  activations stub_toolkit 1 ["fa"]
    = activations stub_toolkit 2 ["fa"; "--gapplication-service"]
  /\ loop_status stub_toolkit 1 ["fa"]
     = loop_status stub_toolkit 2 ["fa"; "--gapplication-service"]
  /\ (firstn 3 (log (exec (main stub_toolkit 1 ["fa"]) world0))
      = firstn 3 (log (exec (main stub_toolkit 2
                               ["fa"; "--gapplication-service"]) world0))
      /\ nth_error (log (exec (main stub_toolkit 1 ["fa"]) world0)) 3
         = Some (c_g_application_run 1 1 ["fa"])
      /\ nth_error (log (exec (main stub_toolkit 2
                                 ["fa"; "--gapplication-service"]) world0)) 3
         = Some (c_g_application_run 1 2 ["fa"; "--gapplication-service"])
      /\ skipn 4 (log (exec (main stub_toolkit 1 ["fa"]) world0))
         = skipn 4 (log (exec (main stub_toolkit 2
                                 ["fa"; "--gapplication-service"]) world0))).
Proof.
  split; [reflexivity | split; [reflexivity |]].
  apply (arguments_reach_only_run_call stub_toolkit 1 2
           ["fa"] ["fa"; "--gapplication-service"]); reflexivity.
Defined.
